(** * Link list manager and compliance client

    A shallow embedding of two modules of the catalog web application:

    - [wherehows-web/app/utils/api/datasets/compliance.ts], the client-side
      functions that read and save the compliance policy of a dataset;
    - [datahub-web-react/.../Documentation/components/LinkList.tsx], the
      handlers of the component that edits and deletes institutional-memory
      links.

    Both are asynchronous code over remote calls.  A promise is embedded as a
    computation over a world that records, in order, every call and every
    user-visible effect; how the remote side answers is a parameter, so each
    statement holds for every behaviour of the backend. *)

From Stdlib Require Import String List ZArith.
Import ListNotations.
Open Scope string_scope.

(** ** Promises and [async] functions *)

(** How a promise settles: fulfilled with a value, or rejected with the value
    that was thrown. *)
Inductive settled (Thrown A : Type) : Type :=
| Fulfilled (a : A)
| Rejected (e : Thrown).

Arguments Fulfilled {Thrown A} a.
Arguments Rejected {Thrown A} e.

(** An [async] body: it runs from a world and leaves a settled promise and the
    world after it. *)
Definition async (Thrown World A : Type) : Type :=
  World -> settled Thrown A * World.

Section Promise.
Context {Thrown World : Type}.

(** [return a] in an async function. *)
Definition resolve {A} (a : A) : async Thrown World A :=
  fun w => (Fulfilled a, w).

(** [throw e]. *)
Definition throw {A} (e : Thrown) : async Thrown World A :=
  fun w => (Rejected e, w).

(** [const x = await p; k x]: a rejection of [p] leaves the body at once. *)
Definition await {A B} (p : async Thrown World A)
           (k : A -> async Thrown World B) : async Thrown World B :=
  fun w =>
    match p w with
    | (Fulfilled a, w') => k a w'
    | (Rejected e, w') => (Rejected e, w')
    end.

(** [try { body } catch (e) { handler e }]. *)
Definition try_catch {A} (body : async Thrown World A)
           (handler : Thrown -> async Thrown World A) : async Thrown World A :=
  fun w =>
    match body w with
    | (Fulfilled a, w') => (Fulfilled a, w')
    | (Rejected e, w') => handler e w'
    end.

(** A synchronous statement that only changes the world. *)
Definition perform (f : World -> World) : async Thrown World unit :=
  fun w => (Fulfilled tt, f w).

(** A remote call: the world it is issued in decides how it settles, and the
    call is recorded. *)
Definition remote {A} (answer : World -> settled Thrown A)
           (record : World -> World) : async Thrown World A :=
  fun w => (answer w, record w).

End Promise.

Declare Scope async_scope.
Delimit Scope async_scope with async.
Notation "x <- p ;; k" := (await p (fun x => k))
  (at level 61, p at next level, right associativity) : async_scope.
Notation "p ;; k" := (await p (fun _ => k))
  (at level 61, right associativity) : async_scope.
Open Scope async_scope.

(** ** JavaScript values tested for truthiness *)

Module JS.

(** An optional string property is truthy when it is there and not empty;
    [None] is [undefined] (or [null]). *)
Definition truthy (s : option string) : bool :=
  match s with
  | Some s => negb (s =? "")
  | None => false
  end.

(** [a || b] for an optional string [a] and a string [b]. *)
Definition or (a : option string) (b : string) : string :=
  if truthy a then match a with Some s => s | None => b end else b.

(** [o?.p] for an optional object [o] with an optional string property [p]. *)
Definition chain {A} (o : option A) (p : A -> option string) : option string :=
  match o with
  | Some x => p x
  | None => None
  end.

(** The line feed of a template literal. *)
Definition nl : string := String (Ascii.ascii_of_nat 10) EmptyString.

End JS.

(** ** compliance.ts *)

Module Compliance.

(** What the module imports and this development does not have the source
    of: the typings of the API, the constants, the url helpers, the retention
    helpers and the test for a not-found error. *)
Class Imports : Type := {
  IComplianceInfo : Type;
  IComplianceSuggestion : Type;
  IDatasetRetention : Type;
  SuggestionIntent : Type;
  (* what a failed request throws *)
  ApiError : Type;
  (* wherehows-web/utils/api *)
  isNotFoundApiError : ApiError -> bool;
  (* wherehows-web/constants: the policy of a dataset that has none yet *)
  initialComplianceObjectFactory : string -> IComplianceInfo;
  (* wherehows-web/utils/api/datasets/shared *)
  datasetUrlById : Z -> string;
  datasetUrlByUrn : string -> string;
  (* wherehows-web/utils/datasets/retention *)
  extractRetentionFromComplianceInfo : IComplianceInfo -> IDatasetRetention;
  nullifyRetentionFieldsOnComplianceInfo : IComplianceInfo -> IComplianceInfo;
  (* the empty object literal, read as a suggestion *)
  emptySuggestion : IComplianceSuggestion
}.

Section Client.
Context {imports : Imports}.

(** [Pick<IComplianceGetResponse, 'complianceInfo'>]: the property is
    optional, [None] is a body without it. *)
Record IComplianceGetResponse : Type := {
  response_complianceInfo : option IComplianceInfo
}.

(** [Pick<IComplianceSuggestionResponse, 'complianceSuggestion'>]. *)
Record IComplianceSuggestionResponse : Type := {
  response_complianceSuggestion : option IComplianceSuggestion
}.

(** The [data] of a [postJSON]. *)
Inductive body : Type :=
| PolicyBody (complianceInfo : IComplianceInfo)
| FeedbackBody (uid : option string) (feedback : SuggestionIntent).

(** The requests the module issues, as the backend sees them. *)
Inductive request : Type :=
| GET (url : string)
| POST (url : string) (data : body)
| POST_retention (urn : string) (retention : IDatasetRetention).

(** The world of the client: the requests sent so far, oldest first. *)
Definition log : Type := list request.

(** Sending a request appends it to the log. *)
Definition send (r : request) (l : log) : log := (l ++ [r])%list.

(** The backend: how each request settles, given everything sent before. *)
Class Backend : Type := {
  answer_compliance : log -> string -> settled ApiError IComplianceGetResponse;
  answer_suggestion : log -> string -> settled ApiError IComplianceSuggestionResponse;
  answer_post : log -> string -> body -> settled ApiError unit;
  answer_retention : log -> string -> IDatasetRetention -> settled ApiError unit
}.

Context {backend : Backend}.

Definition promise (A : Type) : Type := async ApiError log A.

(** [getJSON<Pick<IComplianceGetResponse, 'complianceInfo'>>({ url })]. *)
Definition getJSON_compliance (url : string) : promise IComplianceGetResponse :=
  remote (fun l => answer_compliance l url) (send (GET url)).

(** [getJSON<IComplianceSuggestionResponse>({ url })]. *)
Definition getJSON_suggestion (url : string) : promise IComplianceSuggestionResponse :=
  remote (fun l => answer_suggestion l url) (send (GET url)).

(** [postJSON<void>({ url, data })]. *)
Definition postJSON (url : string) (data : body) : promise unit :=
  remote (fun l => answer_post l url data) (send (POST url data)).

(** Modelled from the spec: [saveDatasetRetentionByUrn] is defined in
    [utils/api/datasets/retention], which is not among the sources; the spec
    lists its remote call as post-retention(urn, body), the write that
    persists the retention fields against the urn. *)
Definition saveDatasetRetentionByUrn (urn : string) (retention : IDatasetRetention)
  : promise unit :=
  remote (fun l => answer_retention l urn retention)
         (send (POST_retention urn retention)).

Definition datasetComplianceUrlById (id : Z) : string :=
  datasetUrlById id ++ "/compliance".

Definition datasetComplianceUrlByUrn (urn : string) : string :=
  datasetUrlByUrn urn ++ "/compliance".

Definition datasetComplianceSuggestionsUrlById (id : Z) : string :=
  datasetComplianceUrlById id ++ "/suggestions".

Definition datasetComplianceSuggestionUrlByUrn (urn : string) : string :=
  datasetUrlByUrn urn ++ "/compliance/suggestion".

Definition datasetComplianceSuggestionFeedbackUrlByUrn (urn : string) : string :=
  datasetComplianceSuggestionUrlByUrn urn ++ "/feedback".

(** The value the read resolves with.  The interface declares
    [complianceInfo: IComplianceInfo]; what is stored at run time is the
    variable of the function under a non-null assertion, which checks
    nothing: [None] is [undefined]. *)
Record IReadComplianceResult : Type := {
  isNewComplianceInfo : bool;
  complianceInfo : option IComplianceInfo
}.

(** The two [let] variables are threaded through the [try] statement: each
    branch leaves the pair (complianceInfo, isNewComplianceInfo). *)
Definition readDatasetComplianceByUrn (urn : string) : promise IReadComplianceResult :=
  let complianceInfo0 := Some (initialComplianceObjectFactory urn) in
  let isNewComplianceInfo0 := false in
  locals <-
    try_catch
      (response <- getJSON_compliance (datasetComplianceUrlByUrn urn) ;;
       resolve (response_complianceInfo response, isNewComplianceInfo0))
      (fun e =>
         if isNotFoundApiError e
         then resolve (Some (initialComplianceObjectFactory urn), true)
         else throw e) ;;
  resolve {| isNewComplianceInfo := snd locals; complianceInfo := fst locals |}.

Definition saveDatasetComplianceByUrn (urn : string) (complianceInfo : IComplianceInfo)
  : promise unit :=
  postJSON (datasetComplianceUrlByUrn urn)
           (PolicyBody (nullifyRetentionFieldsOnComplianceInfo complianceInfo)) ;;
  saveDatasetRetentionByUrn urn (extractRetentionFromComplianceInfo complianceInfo).

(** The default of a destructuring pattern: taken when the property is
    [undefined]. *)
Definition with_default {A} (a : option A) (d : A) : A :=
  match a with
  | Some v => v
  | None => d
  end.

Definition readDatasetComplianceSuggestion (id : Z) : promise IComplianceSuggestion :=
  response <- getJSON_suggestion (datasetComplianceSuggestionsUrlById id) ;;
  resolve (with_default (response_complianceSuggestion response) emptySuggestion).

Definition readDatasetComplianceSuggestionByUrn (urn : string)
  : promise IComplianceSuggestion :=
  let complianceSuggestion0 := emptySuggestion in
  try_catch
    (response <- getJSON_suggestion (datasetComplianceSuggestionUrlByUrn urn) ;;
     resolve (with_default (response_complianceSuggestion response) emptySuggestion))
    (fun _ => resolve complianceSuggestion0).

Definition saveDatasetComplianceSuggestionFeedbackByUrn
           (urn : string) (uid : option string) (feedback : SuggestionIntent)
  : promise unit :=
  postJSON (datasetComplianceSuggestionFeedbackUrlByUrn urn) (FeedbackBody uid feedback).

End Client.

End Compliance.

(** ** LinkList.tsx *)

Module LinkList.

(** What [catch (e: unknown)] may receive: an instance of [Error], which has
    a message, or any other thrown value. *)
Inductive thrown : Type :=
| ErrorInstance (message : string)
| OtherValue (shown : string).

(** [InstitutionalMemoryMetadata]: a link of an entity.  [associatedUrn] is
    the resource the link hangs on when it is not the entity shown. *)
Record InstitutionalMemoryMetadata : Type := {
  url : string;
  label : string;
  description : string;
  associatedUrn : option string;
  author_urn : string;
  author_username : string;
  created_time : Z
}.

(** The input of the remove-link mutation. *)
Record RemoveLinkInput : Type := {
  remove_linkUrl : string;
  remove_resourceUrn : string
}.

(** The input of the add-link mutation. *)
Record AddLinkInput : Type := {
  add_linkUrl : string;
  add_label : string;
  add_resourceUrn : string
}.

(** The values of the edit form handed to [onFinish]. *)
Record FormData : Type := {
  form_url : string;
  form_label : string
}.

(** The user context: [urn] is there once a user is signed in. *)
Record UserContext : Type := {
  urn : option string
}.

(** The state of the component, that the setters write. *)
Record State : Type := {
  editModalVisble : bool;
  initialValues : FormData;
  linkDetails : option InstitutionalMemoryMetadata
}.

(** The enumerations of [types.generated] and of [analytics], of which the
    component names one member each. *)
Class Imports : Type := {
  EntityType : Type;
  EventType : Type;
  EntityActionEvent : EventType;
  EntityActionType : Type;
  UpdateLinks : EntityActionType
}.

Section Component.
Context {imports : Imports}.

(** The argument of [analytics.event]. *)
Record AnalyticsEvent : Type := {
  event_type : EventType;
  event_entityType : EntityType;
  event_entityUrn : string;
  event_actionType : EntityActionType
}.

(** What a handler does that can be seen from outside, in the order it does
    it: the two mutations, the notices of [message], the analytics event and
    the call of the [refetch] callback. *)
Inductive effect : Type :=
| RemoveLinkCall (input : RemoveLinkInput)
| AddLinkCall (input : AddLinkInput)
| MessageSuccess (content : string) (duration : Z)
| MessageError (content : string) (duration : Z)
| MessageDestroy
| AnalyticsCall (event : AnalyticsEvent)
| RefetchCall.

(** The world of a handler: the state the setters have written and the
    effects so far, oldest first. *)
Record World : Type := {
  state : State;
  effects : list effect
}.

(** What one render gives the handlers it creates: the [refetch] property
    (when the parent passes one), the values of the hooks, and the link under
    edit as the state held it. *)
Class Render : Type := {
  refetch : option unit;
  entityUrn : string;
  entityType : EntityType;
  user : option UserContext;
  mutationUrn : string;
  rendered_linkDetails : option InstitutionalMemoryMetadata
}.

(** The GraphQL server: how each mutation settles, given the effects before. *)
Class Server : Type := {
  answer_removeLink : list effect -> RemoveLinkInput -> settled thrown unit;
  answer_addLink : list effect -> AddLinkInput -> settled thrown unit
}.

Context {render : Render} {server : Server}.

Definition handler (A : Type) : Type := async thrown World A.

Definition emit (e : effect) (w : World) : World :=
  {| state := state w; effects := (effects w ++ [e])%list |}.

(** [removeLinkMutation({ variables: { input } })]. *)
Definition removeLinkMutation (input : RemoveLinkInput) : handler unit :=
  remote (fun w => answer_removeLink (effects w) input) (emit (RemoveLinkCall input)).

(** [addLinkMutation({ variables: { input } })]. *)
Definition addLinkMutation (input : AddLinkInput) : handler unit :=
  remote (fun w => answer_addLink (effects w) input) (emit (AddLinkCall input)).

(** [message.success({ content, duration })]. *)
Definition message_success (content : string) (duration : Z) : handler unit :=
  perform (emit (MessageSuccess content duration)).

(** [message.error({ content, duration })]. *)
Definition message_error (content : string) (duration : Z) : handler unit :=
  perform (emit (MessageError content duration)).

(** [message.destroy()]. *)
Definition message_destroy : handler unit :=
  perform (emit MessageDestroy).

(** [analytics.event(event)]. *)
Definition analytics_event (event : AnalyticsEvent) : handler unit :=
  perform (emit (AnalyticsCall event)).

(** [refetch?.()]: the callback is called when there is one; the promise it
    returns is not awaited. *)
Definition refetch_optional_call : handler unit :=
  match refetch with
  | Some _ => perform (emit RefetchCall)
  | None => resolve tt
  end.

Definition setEditModalVisible (visible : bool) : handler unit :=
  perform (fun w =>
    {| state := {| editModalVisble := visible;
                   initialValues := initialValues (state w);
                   linkDetails := linkDetails (state w) |};
       effects := effects w |}).

Definition setInitialValues (values : FormData) : handler unit :=
  perform (fun w =>
    {| state := {| editModalVisble := editModalVisble (state w);
                   initialValues := values;
                   linkDetails := linkDetails (state w) |};
       effects := effects w |}).

Definition setLinkDetails (details : option InstitutionalMemoryMetadata) : handler unit :=
  perform (fun w =>
    {| state := {| editModalVisble := editModalVisble (state w);
                   initialValues := initialValues (state w);
                   linkDetails := details |};
       effects := effects w |}).

(** The body of both [catch] blocks, up to the words of the notice:
    [message.destroy()], then a notice when the value is an [Error]. *)
Definition report (what : string) (e : thrown) : handler unit :=
  message_destroy ;;
  match e with
  | ErrorInstance message =>
      message_error (what ++ JS.nl ++ " " ++ JS.or (Some message) "") 2
  | OtherValue _ => resolve tt
  end.

Definition handleDeleteLink (metadata : InstitutionalMemoryMetadata) : handler unit :=
  try_catch
    (removeLinkMutation
       {| remove_linkUrl := url metadata;
          remove_resourceUrn := JS.or (associatedUrn metadata) entityUrn |} ;;
     message_success "Link Removed" 2)
    (report "Error removing link: ") ;;
  refetch_optional_call.

Definition handleEditLink (metadata : InstitutionalMemoryMetadata) : handler unit :=
  setInitialValues {| form_url := url metadata; form_label := description metadata |} ;;
  setLinkDetails (Some metadata) ;;
  setEditModalVisible true.

Definition handleClose : handler unit :=
  setEditModalVisible false.

Definition handleEdit (formData : FormData) : handler unit :=
  match rendered_linkDetails with
  | None => resolve tt
  | Some linkDetails =>
      try_catch
        (removeLinkMutation
           {| remove_linkUrl := url linkDetails;
              remove_resourceUrn := JS.or (associatedUrn linkDetails) entityUrn |} ;;
         if JS.truthy (JS.chain user urn)
         then
           addLinkMutation
             {| add_linkUrl := form_url formData;
                add_label := form_label formData;
                add_resourceUrn := mutationUrn |} ;;
           message_success "Link Updated" 2 ;;
           analytics_event
             {| event_type := EntityActionEvent;
                event_entityType := entityType;
                event_entityUrn := mutationUrn;
                event_actionType := UpdateLinks |} ;;
           refetch_optional_call ;;
           handleClose
         else
           message_error "Error updating link: no user" 2)
        (report "Error updating link: ")
  end.

(** The effects a handler added, running from [w] to [w']. *)
Definition emitted (w w' : World) : list effect :=
  skipn (length (effects w)) (effects w').

(** The world after a handler that wrote no state and added [added]. *)
Definition after (w : World) (added : list effect) : World :=
  {| state := state w; effects := (effects w ++ added)%list |}.

(** The effects of a [catch] block: what [report] adds. *)
Definition report_effects (what : string) (e : thrown) : list effect :=
  MessageDestroy ::
  match e with
  | ErrorInstance message =>
      [MessageError (what ++ JS.nl ++ " " ++ JS.or (Some message) "") 2]
  | OtherValue _ => []
  end.

(** The effects of [refetch?.()]. *)
Definition refetch_effects : list effect :=
  match refetch with
  | Some _ => [RefetchCall]
  | None => []
  end.

(** The two mutation inputs of an edit: the link as it was, and the link as
    the form gives it. *)
Definition old_link (link : InstitutionalMemoryMetadata) : RemoveLinkInput :=
  {| remove_linkUrl := url link;
     remove_resourceUrn := JS.or (associatedUrn link) entityUrn |}.

Definition new_link (formData : FormData) : AddLinkInput :=
  {| add_linkUrl := form_url formData;
     add_label := form_label formData;
     add_resourceUrn := mutationUrn |}.

(** The spec's reading of an edit without a signed-in user, in its words: no
    add-link call, an error reported, and the operation aborted before any
    write, so no remove-link call either. *)
Definition aborted_before_any_write (formData : FormData) (w : World) : Prop :=
  let added := emitted w (snd (handleEdit formData w)) in
  (forall input, ~ In (AddLinkCall input) added) /\
  (exists content duration, In (MessageError content duration) added) /\
  (forall input, ~ In (RemoveLinkCall input) added).

(** The render that follows a handler: the hooks give what they gave, and
    [useState] gives the link under edit that the handler left in the
    state. *)
Definition rerender (w : World) : Render :=
  {| refetch := refetch;
     entityUrn := entityUrn;
     entityType := entityType;
     user := user;
     mutationUrn := mutationUrn;
     rendered_linkDetails := linkDetails (state w) |}.

(** [useEntityData().entityData], as far as the component reads it: every
    step of [entityData?.institutionalMemory?.elements] may be missing. *)
Record InstitutionalMemory : Type := {
  elements : option (list InstitutionalMemoryMetadata)
}.

Record EntityData : Type := {
  institutionalMemory : option InstitutionalMemory
}.

(** What the component takes from the entity registry, from
    [types.generated] and from [containers/profile/utils], none of them among
    the sources. *)
Class Registry : Type := {
  CorpUser : EntityType;
  getEntityUrl : EntityType -> string -> string;
  formatDateString : Z -> string
}.

Context {registry : Registry}.

(** [entityData?.institutionalMemory?.elements || []]: an array is truthy
    even when it is empty, so the default is taken only for a missing one. *)
Definition links (entityData : option EntityData) : list InstitutionalMemoryMetadata :=
  match entityData with
  | Some data =>
      match institutionalMemory data with
      | Some memory =>
          match elements memory with
          | Some found => found
          | None => []
          end
      | None => []
      end
  | None => []
  end.

(** A row of the list, as [renderItem] builds it: the two buttons, the anchor
    with its text, and the line about who added the link and when. *)
Record LinkListItem : Type := {
  item_onEdit : handler unit;
  item_onDelete : handler unit;
  item_href : string;
  item_title : string;
  item_added : string;
  item_author_to : string;
  item_author : string
}.

Definition renderItem (link : InstitutionalMemoryMetadata) : LinkListItem :=
  {| item_onEdit := handleEditLink link;
     item_onDelete := handleDeleteLink link;
     item_href := url link;
     item_title := JS.or (Some (description link)) (label link);
     item_added := formatDateString (created_time link);
     item_author_to := getEntityUrl CorpUser (author_urn link);
     item_author := author_username link |}.

(** The edit dialog with its form: whether it shows, what closes it (the
    cancel of the dialog and the Cancel button alike), what the form submits
    to and what it is filled with. *)
Record EditLinkModal : Type := {
  modal_visible : bool;
  modal_onCancel : handler unit;
  form_onFinish : FormData -> handler unit;
  form_initialValues : FormData
}.

(** What the component returns when it returns an element: the dialog, and
    the list when [links.length > 0]. *)
Record Element : Type := {
  element_modal : EditLinkModal;
  element_list : option (list LinkListItem)
}.

(** The [return] of the component for the state [st]: [null] without entity
    data. *)
Definition element (st : State) (entityData : option EntityData) : option Element :=
  match entityData with
  | Some _ =>
      Some {| element_modal :=
                {| modal_visible := editModalVisble st;
                   modal_onCancel := handleClose;
                   form_onFinish := handleEdit;
                   form_initialValues := initialValues st |};
              element_list :=
                if Nat.ltb 0 (length (links entityData))
                then Some (map renderItem (links entityData))
                else None |}
  | None => None
  end.

End Component.

(** Membership in a list of effects that ends in what [report] or the
    refetch adds: split on which they are, and decide. *)
Ltac list_cases :=
  unfold report_effects, refetch_effects;
  repeat match goal with
         | |- context [match ?x with _ => _ end] => destruct x
         end;
  cbn [In app]; intuition discriminate.

End LinkList.

(** ** Concrete instances *)

(** A small catalog to run the compliance client against. *)
Module ComplianceExample.

(** Modelled from the spec: the shape of a compliance policy is declared in
    [typings/api/datasets/compliance], not among the sources; the spec has it
    keyed by dataset urn, with classification fields and retention fields. *)
Record Policy : Type := {
  datasetUrn : string;
  confidentiality : option string;
  purgeType : option string;
  purgeNote : option string
}.

Record Retention : Type := {
  retention_datasetUrn : string;
  retention_purgeType : option string;
  retention_purgeNote : option string
}.

(** A suggestion as the fields it suggests a classification for; the empty
    object has none. *)
Definition Suggestion : Type := list (string * string).

Inductive Intent : Type := accept | discard.

(** A failed request, with the status of the response. *)
Record HttpError : Type := { status : Z }.

(** Modelled from the spec: the default policy, the helpers and the not-found
    test are imported from files that are not among the sources; the spec
    says not-found is the 404 status, that the default policy is built for
    the urn, and that the retention fields are stripped from the policy body
    and extracted from the policy. *)
Definition imports : Compliance.Imports := {|
  Compliance.IComplianceInfo := Policy;
  Compliance.IComplianceSuggestion := Suggestion;
  Compliance.IDatasetRetention := Retention;
  Compliance.SuggestionIntent := Intent;
  Compliance.ApiError := HttpError;
  Compliance.isNotFoundApiError := fun e => (status e =? 404)%Z;
  Compliance.initialComplianceObjectFactory := fun urn =>
    {| datasetUrn := urn; confidentiality := None;
       purgeType := None; purgeNote := None |};
  Compliance.datasetUrlById := fun _ => "/api/v2/datasets/id";
  Compliance.datasetUrlByUrn := fun urn => "/api/v2/datasets/" ++ urn;
  Compliance.extractRetentionFromComplianceInfo := fun info =>
    {| retention_datasetUrn := datasetUrn info;
       retention_purgeType := purgeType info;
       retention_purgeNote := purgeNote info |};
  Compliance.nullifyRetentionFieldsOnComplianceInfo := fun info =>
    {| datasetUrn := datasetUrn info; confidentiality := confidentiality info;
       purgeType := None; purgeNote := None |};
  Compliance.emptySuggestion := []
|}.

#[local] Existing Instance imports.

(** A backend that answers each kind of request the same way every time. *)
Definition backend
  (compliance : settled HttpError (option Policy))
  (suggestion : settled HttpError (option Suggestion))
  (post retention : settled HttpError unit) : @Compliance.Backend imports := {|
  Compliance.answer_compliance := fun _ _ =>
    match compliance with
    | Fulfilled info => Fulfilled {| Compliance.response_complianceInfo := info |}
    | Rejected e => Rejected e
    end;
  Compliance.answer_suggestion := fun _ _ =>
    match suggestion with
    | Fulfilled s => Fulfilled {| Compliance.response_complianceSuggestion := s |}
    | Rejected e => Rejected e
    end;
  Compliance.answer_post := fun _ _ _ => post;
  Compliance.answer_retention := fun _ _ _ => retention
|}.

Definition not_found : HttpError := {| status := 404 |}.
Definition server_error : HttpError := {| status := 500 |}.

Definition urn1 : string := "urn:li:dataset:1".

(** A stored policy of that dataset. *)
Definition stored : Policy := {|
  datasetUrn := urn1;
  confidentiality := Some "CONFIDENTIAL";
  purgeType := Some "AUTO_PURGE";
  purgeNote := Some "purge after 30 days"
|}.

End ComplianceExample.

(** An entity with one link, to run the handlers of the list against. *)
Module LinkListExample.

Definition imports : LinkList.Imports := {|
  LinkList.EntityType := string;
  LinkList.EventType := string;
  LinkList.EntityActionEvent := "EntityActionEvent";
  LinkList.EntityActionType := string;
  LinkList.UpdateLinks := "UpdateLinks"
|}.

#[local] Existing Instance imports.

Definition wiki : LinkList.InstitutionalMemoryMetadata := {|
  LinkList.url := "https://wiki.example.com/orders";
  LinkList.label := "Orders wiki";
  LinkList.description := "Orders wiki";
  LinkList.associatedUrn := None;
  LinkList.author_urn := "urn:li:corpuser:jdoe";
  LinkList.author_username := "jdoe";
  LinkList.created_time := 1700000000000
|}.

(** The same link, hanging on another resource. *)
Definition wiki_of_sibling : LinkList.InstitutionalMemoryMetadata := {|
  LinkList.url := "https://wiki.example.com/orders";
  LinkList.label := "Orders wiki";
  LinkList.description := "Orders wiki";
  LinkList.associatedUrn := Some "urn:li:dataset:sibling";
  LinkList.author_urn := "urn:li:corpuser:jdoe";
  LinkList.author_username := "jdoe";
  LinkList.created_time := 1700000000000
|}.

(** A render of the list of the dataset [urn:li:dataset:orders]. *)
Definition render (user : option LinkList.UserContext)
  (editing : option LinkList.InstitutionalMemoryMetadata)
  : @LinkList.Render imports := {|
  LinkList.refetch := Some tt;
  LinkList.entityUrn := "urn:li:dataset:orders";
  LinkList.entityType := "DATASET";
  LinkList.user := user;
  LinkList.mutationUrn := "urn:li:dataset:orders";
  LinkList.rendered_linkDetails := editing
|}.

Definition jdoe : LinkList.UserContext :=
  {| LinkList.urn := Some "urn:li:corpuser:jdoe" |}.

(** A server that answers each mutation the same way every time. *)
Definition server (removeLink addLink : settled LinkList.thrown unit)
  : @LinkList.Server imports := {|
  LinkList.answer_removeLink := fun _ _ => removeLink;
  LinkList.answer_addLink := fun _ _ => addLink
|}.

Definition form : LinkList.FormData := {|
  LinkList.form_url := "https://wiki.example.com/orders-v2";
  LinkList.form_label := "Orders wiki (v2)"
|}.

(** The component before any handler ran: the dialog closed, nothing done. *)
Definition start : @LinkList.World imports := {|
  LinkList.state := {|
    LinkList.editModalVisble := false;
    LinkList.initialValues := {| LinkList.form_url := ""; LinkList.form_label := "" |};
    LinkList.linkDetails := None |};
  LinkList.effects := []
|}.

(** The registry of the example: users live under [/user/]. *)
Definition registry : @LinkList.Registry imports := {|
  LinkList.CorpUser := "CORP_USER";
  LinkList.getEntityUrl := fun type urn => "/user/" ++ urn;
  LinkList.formatDateString := fun _ => "Nov 14, 2023"
|}.

(** The dataset with its two links. *)
Definition orders : LinkList.EntityData := {|
  LinkList.institutionalMemory :=
    Some {| LinkList.elements := Some [wiki; wiki_of_sibling] |}
|}.

End LinkListExample.

(** * Properties *)

(** ** The compliance client *)

Module ComplianceFacts.
Import Compliance.

Section Facts.
Context {imports : Imports} {backend : Backend}.

(** The read sends one GET and settles by the answer: the body's policy
    marked not new, the default policy marked new on a not-found error, the
    error itself otherwise. *)
Lemma readDatasetComplianceByUrn_run (urn : string) (l : log) :
  readDatasetComplianceByUrn urn l =
  (match answer_compliance l (datasetComplianceUrlByUrn urn) with
   | Fulfilled response =>
       Fulfilled {| isNewComplianceInfo := false;
                    complianceInfo := response_complianceInfo response |}
   | Rejected e =>
       if isNotFoundApiError e
       then Fulfilled {| isNewComplianceInfo := true;
                         complianceInfo := Some (initialComplianceObjectFactory urn) |}
       else Rejected e
   end,
   send (GET (datasetComplianceUrlByUrn urn)) l).
Proof.
  unfold readDatasetComplianceByUrn, try_catch, await, getJSON_compliance, remote.
  destruct (answer_compliance l (datasetComplianceUrlByUrn urn)) as [response | e];
    [reflexivity |].
  destruct (isNotFoundApiError e); reflexivity.
Qed.

(** C1: for every urn, when the compliance GET is rejected with a not-found
    error, the read resolves with the policy that
    [initialComplianceObjectFactory urn] builds and with
    [isNewComplianceInfo] true. *)
Theorem read_not_found_is_default (urn : string) (l : log) (e : ApiError) :
  answer_compliance l (datasetComplianceUrlByUrn urn) = Rejected e ->
  isNotFoundApiError e = true ->
  readDatasetComplianceByUrn urn l =
  (Fulfilled {| isNewComplianceInfo := true;
                complianceInfo := Some (initialComplianceObjectFactory urn) |},
   send (GET (datasetComplianceUrlByUrn urn)) l).
Proof.
  intros Hanswer Hnotfound.
  rewrite readDatasetComplianceByUrn_run, Hanswer, Hnotfound.
  reflexivity.
Qed.

(** C5: for every urn, when the compliance GET succeeds the read resolves
    with the policy of the body as it came and with [isNewComplianceInfo]
    false; when the GET is rejected with an error that is not a not-found
    error, the read is rejected with that error. *)
Theorem read_success_or_propagate (urn : string) (l : log) :
  (forall response,
     answer_compliance l (datasetComplianceUrlByUrn urn) = Fulfilled response ->
     readDatasetComplianceByUrn urn l =
     (Fulfilled {| isNewComplianceInfo := false;
                   complianceInfo := response_complianceInfo response |},
      send (GET (datasetComplianceUrlByUrn urn)) l)) /\
  (forall e,
     answer_compliance l (datasetComplianceUrlByUrn urn) = Rejected e ->
     isNotFoundApiError e = false ->
     readDatasetComplianceByUrn urn l =
     (Rejected e, send (GET (datasetComplianceUrlByUrn urn)) l)).
Proof.
  split.
  - intros response Hanswer.
    now rewrite readDatasetComplianceByUrn_run, Hanswer.
  - intros e Hanswer Hother.
    now rewrite readDatasetComplianceByUrn_run, Hanswer, Hother.
Qed.

(** C9: when the compliance GET succeeds with a body that has no
    [complianceInfo], the read resolves with [complianceInfo] undefined and
    [isNewComplianceInfo] false: the default policy the variable was
    initialised with is overwritten by the destructuring, and the non-null
    assertion lets the undefined value through. *)
Theorem read_success_without_policy (urn : string) (l : log)
        (response : IComplianceGetResponse) :
  answer_compliance l (datasetComplianceUrlByUrn urn) = Fulfilled response ->
  response_complianceInfo response = None ->
  readDatasetComplianceByUrn urn l =
  (Fulfilled {| isNewComplianceInfo := false; complianceInfo := None |},
   send (GET (datasetComplianceUrlByUrn urn)) l) /\
  (forall result,
     fst (readDatasetComplianceByUrn urn l) = Fulfilled result ->
     complianceInfo result <> Some (initialComplianceObjectFactory urn)).
Proof.
  intros Hanswer Hnone.
  assert (Hrun : readDatasetComplianceByUrn urn l =
                 (Fulfilled {| isNewComplianceInfo := false; complianceInfo := None |},
                  send (GET (datasetComplianceUrlByUrn urn)) l)).
  { rewrite readDatasetComplianceByUrn_run, Hanswer, Hnone. reflexivity. }
  split; [exact Hrun |].
  intros result Hresult.
  rewrite Hrun in Hresult. cbn in Hresult.
  inversion Hresult; subst result. cbn. discriminate.
Qed.

(** The save sends the policy body first; the retention write follows only
    when that POST is fulfilled, and its settlement is the save's. *)
Lemma saveDatasetComplianceByUrn_run (urn : string) (info : IComplianceInfo) (l : log) :
  saveDatasetComplianceByUrn urn info l =
  let policy := POST (datasetComplianceUrlByUrn urn)
                     (PolicyBody (nullifyRetentionFieldsOnComplianceInfo info)) in
  let retention := extractRetentionFromComplianceInfo info in
  match answer_post l (datasetComplianceUrlByUrn urn)
                    (PolicyBody (nullifyRetentionFieldsOnComplianceInfo info)) with
  | Fulfilled _ =>
      (answer_retention (send policy l) urn retention,
       send (POST_retention urn retention) (send policy l))
  | Rejected e => (Rejected e, send policy l)
  end.
Proof.
  unfold saveDatasetComplianceByUrn, await, postJSON, saveDatasetRetentionByUrn, remote.
  case (answer_post l _ _); reflexivity.
Qed.

(** C3: for every urn and policy, the save first posts the policy with its
    retention fields stripped to the policy endpoint; once that post is
    fulfilled, and only then, it posts the retention fields extracted from the
    original policy for the same urn; and when this second post is rejected
    the save is rejected with the first write left as sent: the log holds
    the two writes and nothing that undoes the first. *)
Theorem save_posts_policy_then_retention (urn : string) (info : IComplianceInfo) (l : log) :
  (exists later,
     snd (saveDatasetComplianceByUrn urn info l) =
     (l ++ POST (datasetComplianceUrlByUrn urn)
               (PolicyBody (nullifyRetentionFieldsOnComplianceInfo info)) :: later)%list) /\
  (forall done,
     answer_post l (datasetComplianceUrlByUrn urn)
                 (PolicyBody (nullifyRetentionFieldsOnComplianceInfo info)) = Fulfilled done ->
     snd (saveDatasetComplianceByUrn urn info l) =
     (l ++ [POST (datasetComplianceUrlByUrn urn)
                 (PolicyBody (nullifyRetentionFieldsOnComplianceInfo info));
            POST_retention urn (extractRetentionFromComplianceInfo info)])%list) /\
  (forall e,
     answer_post l (datasetComplianceUrlByUrn urn)
                 (PolicyBody (nullifyRetentionFieldsOnComplianceInfo info)) = Rejected e ->
     saveDatasetComplianceByUrn urn info l =
     (Rejected e,
      (l ++ [POST (datasetComplianceUrlByUrn urn)
                  (PolicyBody (nullifyRetentionFieldsOnComplianceInfo info))])%list)) /\
  (forall done e,
     answer_post l (datasetComplianceUrlByUrn urn)
                 (PolicyBody (nullifyRetentionFieldsOnComplianceInfo info)) = Fulfilled done ->
     answer_retention
       (l ++ [POST (datasetComplianceUrlByUrn urn)
                   (PolicyBody (nullifyRetentionFieldsOnComplianceInfo info))])%list
       urn (extractRetentionFromComplianceInfo info) = Rejected e ->
     saveDatasetComplianceByUrn urn info l =
     (Rejected e,
      (l ++ [POST (datasetComplianceUrlByUrn urn)
                  (PolicyBody (nullifyRetentionFieldsOnComplianceInfo info));
             POST_retention urn (extractRetentionFromComplianceInfo info)])%list)).
Proof.
  rewrite saveDatasetComplianceByUrn_run. cbv zeta. unfold send.
  destruct (answer_post l _ _) as [done | e] eqn:Hpost; cbn [fst snd].
  - repeat split.
    + eexists. rewrite <- app_assoc. reflexivity.
    + intros _ _. now rewrite <- app_assoc.
    + intros e He. discriminate He.
    + intros _ e _ Hretention. rewrite Hretention, <- app_assoc. reflexivity.
  - repeat split.
    + exists []. reflexivity.
    + intros done Hdone. discriminate Hdone.
    + intros e' He'. now inversion He'.
    + intros done e' Hdone. discriminate Hdone.
Qed.

(** C4: for every urn the read of the suggestion never rejects; whatever the
    GET throws, it resolves with the empty suggestion object. *)
Theorem read_suggestion_by_urn_never_rejects (urn : string) (l : log) :
  (forall e, fst (readDatasetComplianceSuggestionByUrn urn l) <> Rejected e) /\
  (forall e,
     answer_suggestion l (datasetComplianceSuggestionUrlByUrn urn) = Rejected e ->
     readDatasetComplianceSuggestionByUrn urn l =
     (Fulfilled emptySuggestion,
      send (GET (datasetComplianceSuggestionUrlByUrn urn)) l)).
Proof.
  unfold readDatasetComplianceSuggestionByUrn, try_catch, await,
    getJSON_suggestion, remote, resolve.
  split.
  - intros e.
    destruct (answer_suggestion l (datasetComplianceSuggestionUrlByUrn urn));
      cbn; discriminate.
  - intros e Hanswer. rewrite Hanswer. reflexivity.
Qed.

(** *** The rest of the client *)

Lemma append_assoc (a b c : string) : (a ++ b) ++ c = a ++ b ++ c.
Proof.
  induction a as [| ch a IH]; cbn; [reflexivity | now rewrite IH].
Qed.

(** X1: every url the client builds for a urn extends the compliance url of
    that urn: the suggestion is read under [/suggestion] and the feedback is
    sent under [/suggestion/feedback]; read by id, the suggestions are under
    [/suggestions] of the compliance url by id. *)
Theorem urls_extend_compliance_url (urn : string) (id : Z) :
  datasetComplianceSuggestionUrlByUrn urn =
    datasetComplianceUrlByUrn urn ++ "/suggestion" /\
  datasetComplianceSuggestionFeedbackUrlByUrn urn =
    datasetComplianceUrlByUrn urn ++ "/suggestion/feedback" /\
  datasetComplianceSuggestionsUrlById id =
    datasetUrlById id ++ "/compliance/suggestions".
Proof.
  unfold datasetComplianceSuggestionFeedbackUrlByUrn,
    datasetComplianceSuggestionUrlByUrn, datasetComplianceSuggestionsUrlById,
    datasetComplianceUrlByUrn, datasetComplianceUrlById.
  repeat split; rewrite ?append_assoc; reflexivity.
Qed.

(** X2: a policy read is marked new exactly when the GET was rejected with a
    not-found error, and a result marked new always carries the default
    policy of the urn; a result not marked new carries what the body had. *)
Theorem read_marks_new_iff_not_found (urn : string) (l : log)
        (result : IReadComplianceResult) :
  fst (readDatasetComplianceByUrn urn l) = Fulfilled result ->
  (isNewComplianceInfo result = true <->
   exists e, answer_compliance l (datasetComplianceUrlByUrn urn) = Rejected e /\
             isNotFoundApiError e = true) /\
  (isNewComplianceInfo result = true ->
   complianceInfo result = Some (initialComplianceObjectFactory urn)) /\
  (isNewComplianceInfo result = false ->
   exists response,
     answer_compliance l (datasetComplianceUrlByUrn urn) = Fulfilled response /\
     complianceInfo result = response_complianceInfo response).
Proof.
  rewrite readDatasetComplianceByUrn_run; cbn [fst].
  destruct (answer_compliance l (datasetComplianceUrlByUrn urn)) as [response | e].
  - intros Hresult; inversion Hresult; subst result; cbn.
    repeat split; try discriminate.
    + intros [e [He _]]; discriminate He.
    + intros _. now exists response.
  - destruct (isNotFoundApiError e) eqn:Hnotfound;
      intros Hresult; inversion Hresult; subst result; cbn.
    repeat split; try discriminate; try reflexivity.
    intros _. now exists e.
Qed.

(** X3: the policy read is rejected only with the error of its GET, and only
    when that error is not a not-found error; whatever the outcome, the one
    request it sends is that GET. *)
Theorem read_rejects_only_with_other_errors (urn : string) (l : log) :
  (forall e,
     fst (readDatasetComplianceByUrn urn l) = Rejected e ->
     answer_compliance l (datasetComplianceUrlByUrn urn) = Rejected e /\
     isNotFoundApiError e = false) /\
  snd (readDatasetComplianceByUrn urn l) =
  (l ++ [GET (datasetUrlByUrn urn ++ "/compliance")])%list.
Proof.
  rewrite readDatasetComplianceByUrn_run; cbn [fst snd].
  split; [| reflexivity].
  intros e.
  destruct (answer_compliance l (datasetComplianceUrlByUrn urn)) as [response | e'];
    [discriminate |].
  destruct (isNotFoundApiError e') eqn:Hnotfound; [discriminate |].
  intros Hrejected; inversion Hrejected; subst e'. now split.
Qed.

(** X4: the suggestion read by id does not catch: a rejected GET rejects it
    with the same error; a fulfilled one gives the suggestion of the body,
    or the empty suggestion when the body has none. *)
Theorem read_suggestion_by_id_propagates (id : Z) (l : log) :
  (forall e,
     answer_suggestion l (datasetComplianceSuggestionsUrlById id) = Rejected e ->
     readDatasetComplianceSuggestion id l =
     (Rejected e, (l ++ [GET (datasetComplianceSuggestionsUrlById id)])%list)) /\
  (forall response,
     answer_suggestion l (datasetComplianceSuggestionsUrlById id) = Fulfilled response ->
     readDatasetComplianceSuggestion id l =
     (Fulfilled match response_complianceSuggestion response with
                | Some suggestion => suggestion
                | None => emptySuggestion
                end,
      (l ++ [GET (datasetComplianceSuggestionsUrlById id)])%list)).
Proof.
  unfold readDatasetComplianceSuggestion, await, getJSON_suggestion, remote.
  split.
  - intros e ->. reflexivity.
  - intros response ->. reflexivity.
Qed.

(** X5: when its GET is fulfilled, the suggestion read by urn gives the
    suggestion of the body, and the empty suggestion when the body has
    none: an empty result is what a failed read gives too. *)
Theorem read_suggestion_by_urn_success (urn : string) (l : log)
        (response : IComplianceSuggestionResponse) :
  answer_suggestion l (datasetComplianceSuggestionUrlByUrn urn) = Fulfilled response ->
  (forall suggestion,
     response_complianceSuggestion response = Some suggestion ->
     fst (readDatasetComplianceSuggestionByUrn urn l) = Fulfilled suggestion) /\
  (response_complianceSuggestion response = None ->
   fst (readDatasetComplianceSuggestionByUrn urn l) = Fulfilled emptySuggestion) /\
  snd (readDatasetComplianceSuggestionByUrn urn l) =
  (l ++ [GET (datasetComplianceSuggestionUrlByUrn urn)])%list.
Proof.
  intros Hanswer.
  unfold readDatasetComplianceSuggestionByUrn, try_catch, await,
    getJSON_suggestion, remote.
  rewrite Hanswer; cbn.
  repeat split.
  - intros suggestion ->. reflexivity.
  - intros ->. reflexivity.
Qed.

(** X6: the feedback on a suggestion is one POST of the uid and the intent
    to [/compliance/suggestion/feedback] of the dataset; the call settles as
    that POST does, a rejection included, and nothing else is sent. *)
Theorem feedback_is_one_post (urn : string) (uid : option string)
        (feedback : SuggestionIntent) (l : log) :
  saveDatasetComplianceSuggestionFeedbackByUrn urn uid feedback l =
  (answer_post l (datasetUrlByUrn urn ++ "/compliance/suggestion/feedback")
               (FeedbackBody uid feedback),
   (l ++ [POST (datasetUrlByUrn urn ++ "/compliance/suggestion/feedback")
               (FeedbackBody uid feedback)])%list).
Proof.
  unfold saveDatasetComplianceSuggestionFeedbackByUrn, postJSON, remote, send,
    datasetComplianceSuggestionFeedbackUrlByUrn, datasetComplianceSuggestionUrlByUrn.
  now rewrite append_assoc.
Qed.

(** X7: a save is fulfilled exactly when both of its writes are: the POST
    of the policy body and, after it, the retention write. *)
Theorem save_fulfilled_iff_both_writes (urn : string) (info : IComplianceInfo) (l : log) :
  fst (saveDatasetComplianceByUrn urn info l) = Fulfilled tt <->
  answer_post l (datasetComplianceUrlByUrn urn)
              (PolicyBody (nullifyRetentionFieldsOnComplianceInfo info)) = Fulfilled tt /\
  answer_retention
    (l ++ [POST (datasetComplianceUrlByUrn urn)
                (PolicyBody (nullifyRetentionFieldsOnComplianceInfo info))])%list
    urn (extractRetentionFromComplianceInfo info) = Fulfilled tt.
Proof.
  rewrite saveDatasetComplianceByUrn_run. cbv zeta. unfold send.
  destruct (answer_post l _ _) as [[] | e]; cbn [fst].
  - split; [intros H; now split | intros [_ H]; exact H].
  - split; [discriminate | intros [H _]; discriminate H].
Qed.

End Facts.

End ComplianceFacts.

(** The client run against the concrete catalog. *)
Module ComplianceRuns.
Import Compliance ComplianceExample ComplianceFacts.

#[local] Existing Instance ComplianceExample.imports.

(** The example of the spec: the read of [urn:li:dataset:1] against a
    backend that answers 404. *)
Lemma read_not_found_is_default_witness :
  readDatasetComplianceByUrn
    (backend := backend (Rejected not_found) (Rejected not_found)
                        (Fulfilled tt) (Fulfilled tt))
    urn1 [] =
  (Fulfilled {| isNewComplianceInfo := true;
                complianceInfo :=
                  Some {| datasetUrn := "urn:li:dataset:1"; confidentiality := None;
                          purgeType := None; purgeNote := None |} |},
   [GET "/api/v2/datasets/urn:li:dataset:1/compliance"]).
Proof.
  apply (read_not_found_is_default
           (backend := backend (Rejected not_found) (Rejected not_found)
                               (Fulfilled tt) (Fulfilled tt))
           urn1 [] not_found); reflexivity.
Defined.

(** A stored policy comes back as it is; a 500 is thrown on. *)
Lemma read_success_or_propagate_witness :
  readDatasetComplianceByUrn
    (backend := backend (Fulfilled (Some stored)) (Fulfilled None)
                        (Fulfilled tt) (Fulfilled tt))
    urn1 [] =
  (Fulfilled {| isNewComplianceInfo := false; complianceInfo := Some stored |},
   [GET "/api/v2/datasets/urn:li:dataset:1/compliance"]) /\
  readDatasetComplianceByUrn
    (backend := backend (Rejected server_error) (Fulfilled None)
                        (Fulfilled tt) (Fulfilled tt))
    urn1 [] =
  (Rejected server_error, [GET "/api/v2/datasets/urn:li:dataset:1/compliance"]).
Proof.
  split.
  - apply (proj1 (read_success_or_propagate
                    (backend := backend (Fulfilled (Some stored)) (Fulfilled None)
                                        (Fulfilled tt) (Fulfilled tt))
                    urn1 [])
                 (@Build_IComplianceGetResponse imports (Some stored))).
    reflexivity.
  - apply (proj2 (read_success_or_propagate
                    (backend := backend (Rejected server_error) (Fulfilled None)
                                        (Fulfilled tt) (Fulfilled tt))
                    urn1 [])
                 server_error); reflexivity.
Defined.

(** A 200 whose body has no policy. *)
Lemma read_success_without_policy_witness :
  readDatasetComplianceByUrn
    (backend := backend (Fulfilled None) (Fulfilled None)
                        (Fulfilled tt) (Fulfilled tt))
    urn1 [] =
  (Fulfilled {| isNewComplianceInfo := false; complianceInfo := None |},
   [GET "/api/v2/datasets/urn:li:dataset:1/compliance"]).
Proof.
  apply (read_success_without_policy
           (backend := backend (Fulfilled None) (Fulfilled None)
                               (Fulfilled tt) (Fulfilled tt))
           urn1 [] (@Build_IComplianceGetResponse imports None)); reflexivity.
Defined.

(** The policy is saved and the retention write fails with a 500: both
    requests are in the log, the policy body without its retention fields. *)
Lemma save_posts_policy_then_retention_witness :
  saveDatasetComplianceByUrn
    (backend := backend (Fulfilled (Some stored)) (Fulfilled None)
                        (Fulfilled tt) (Rejected server_error))
    urn1 stored [] =
  (Rejected server_error,
   [POST "/api/v2/datasets/urn:li:dataset:1/compliance"
         (PolicyBody {| datasetUrn := urn1; confidentiality := Some "CONFIDENTIAL";
                        purgeType := None; purgeNote := None |});
    POST_retention urn1
         {| retention_datasetUrn := urn1;
            retention_purgeType := Some "AUTO_PURGE";
            retention_purgeNote := Some "purge after 30 days" |}]).
Proof.
  apply (proj2 (proj2 (proj2
           (save_posts_policy_then_retention
              (backend := backend (Fulfilled (Some stored)) (Fulfilled None)
                                  (Fulfilled tt) (Rejected server_error))
              urn1 stored []))) tt server_error); reflexivity.
Defined.

(** The suggestion read against a backend that answers 500. *)
Lemma read_suggestion_by_urn_never_rejects_witness :
  readDatasetComplianceSuggestionByUrn
    (backend := backend (Fulfilled None) (Rejected server_error)
                        (Fulfilled tt) (Fulfilled tt))
    urn1 [] =
  (Fulfilled [], [GET "/api/v2/datasets/urn:li:dataset:1/compliance/suggestion"]).
Proof.
  apply (proj2 (read_suggestion_by_urn_never_rejects
                  (backend := backend (Fulfilled None) (Rejected server_error)
                                      (Fulfilled tt) (Fulfilled tt))
                  urn1 [])
               server_error); reflexivity.
Defined.

(** The result of the read against the 404 backend is marked new and
    carries the default policy. *)
Lemma read_marks_new_iff_not_found_witness :
  complianceInfo
    {| isNewComplianceInfo := true;
       complianceInfo :=
         Some {| datasetUrn := "urn:li:dataset:1"; confidentiality := None;
                 purgeType := None; purgeNote := None |} |} =
  Some (initialComplianceObjectFactory urn1).
Proof.
  apply (proj1 (proj2
           (read_marks_new_iff_not_found
              (backend := backend (Rejected not_found) (Rejected not_found)
                                  (Fulfilled tt) (Fulfilled tt))
              urn1 []
              (Build_IReadComplianceResult true
                 (Some (initialComplianceObjectFactory urn1)))
              eq_refl)));
    reflexivity.
Defined.

(** A 200 with a suggestion, and a 200 without one. *)
Lemma read_suggestion_by_urn_success_witness :
  fst (readDatasetComplianceSuggestionByUrn
         (backend := backend (Fulfilled None)
                             (Fulfilled (Some [("email", "CONFIDENTIAL")]))
                             (Fulfilled tt) (Fulfilled tt))
         urn1 []) = Fulfilled [("email", "CONFIDENTIAL")] /\
  fst (readDatasetComplianceSuggestionByUrn
         (backend := backend (Fulfilled None) (Fulfilled None)
                             (Fulfilled tt) (Fulfilled tt))
         urn1 []) = Fulfilled [].
Proof.
  split.
  - apply (proj1 (read_suggestion_by_urn_success
                    (backend := backend (Fulfilled None)
                                        (Fulfilled (Some [("email", "CONFIDENTIAL")]))
                                        (Fulfilled tt) (Fulfilled tt))
                    urn1 []
                    (@Build_IComplianceSuggestionResponse imports
                       (Some [("email", "CONFIDENTIAL")]))
                    eq_refl)).
    reflexivity.
  - apply (proj1 (proj2 (read_suggestion_by_urn_success
                    (backend := backend (Fulfilled None) (Fulfilled None)
                                        (Fulfilled tt) (Fulfilled tt))
                    urn1 []
                    (@Build_IComplianceSuggestionResponse imports None)
                    eq_refl))).
    reflexivity.
Defined.

End ComplianceRuns.

(** ** The link list *)

Module LinkListFacts.
Import LinkList.

Section Facts.
Context {imports : Imports} {render : Render} {server : Server}.

Lemma emitted_after (w : World) (added : list effect) :
  emitted w (after w added) = added.
Proof.
  unfold emitted, after; cbn [effects].
  induction (effects w) as [| e es IH]; [reflexivity | exact IH].
Qed.

(** What was added does not depend on the state that was written. *)
Lemma emitted_written (w : World) (written : State) (added : list effect) :
  emitted w {| state := written; effects := (effects w ++ added)%list |} = added.
Proof. exact (emitted_after w added). Qed.

Lemma after_emit (w : World) (added : list effect) (e : effect) :
  emit e (after w added) = after w (added ++ [e]).
Proof.
  unfold emit, after; cbn [state effects].
  now rewrite app_assoc.
Qed.

Lemma emit_after (w : World) (e : effect) : emit e w = after w [e].
Proof. reflexivity. Qed.

(** A [catch] block fulfils and adds [report_effects]. *)
Lemma report_run (what : string) (e : thrown) (w : World) (added : list effect) :
  report what e (after w added) =
  (Fulfilled tt, after w (added ++ report_effects what e)).
Proof.
  destruct e as [message | shown];
    unfold report, report_effects, await, message_destroy, message_error,
      perform, resolve;
    rewrite !after_emit, <- ?app_assoc; reflexivity.
Qed.

Lemma refetch_optional_call_run (w : World) (added : list effect) :
  refetch_optional_call (after w added) =
  (Fulfilled tt, after w (added ++ refetch_effects)).
Proof.
  unfold refetch_optional_call, refetch_effects.
  destruct refetch as [callback |]; unfold perform, resolve.
  - now rewrite after_emit.
  - now rewrite app_nil_r.
Qed.

(** A delete always fulfils: the remove call, then the success notice or
    the effects of the [catch] block, then the refetch. *)
Lemma handleDeleteLink_run (metadata : InstitutionalMemoryMetadata) (w : World) :
  handleDeleteLink metadata w =
  (Fulfilled tt,
   after w (RemoveLinkCall (old_link metadata) ::
            match answer_removeLink (effects w) (old_link metadata) with
            | Fulfilled _ => [MessageSuccess "Link Removed" 2]
            | Rejected e => report_effects "Error removing link: " e
            end ++ refetch_effects)).
Proof.
  unfold handleDeleteLink, await at 1.
  unfold try_catch, await, removeLinkMutation, remote, message_success, perform.
  fold (old_link metadata).
  destruct (answer_removeLink (effects w) (old_link metadata)) as [done | e].
  - rewrite (emit_after w), after_emit. apply refetch_optional_call_run.
  - rewrite (emit_after w), report_run. apply refetch_optional_call_run.
Qed.

(** An edit of the link under edit, case by case. *)
Lemma handleEdit_run (formData : FormData) (w : World)
      (link : InstitutionalMemoryMetadata) :
  rendered_linkDetails = Some link ->
  handleEdit formData w =
  match answer_removeLink (effects w) (old_link link) with
  | Rejected e =>
      (Fulfilled tt,
       after w (RemoveLinkCall (old_link link) ::
                report_effects "Error updating link: " e))
  | Fulfilled _ =>
      if JS.truthy (JS.chain user urn)
      then
        match answer_addLink (effects w ++ [RemoveLinkCall (old_link link)])%list
                             (new_link formData) with
        | Fulfilled _ =>
            (Fulfilled tt,
             {| state := {| editModalVisble := false;
                            initialValues := initialValues (state w);
                            linkDetails := linkDetails (state w) |};
                effects :=
                  (effects w ++
                   [RemoveLinkCall (old_link link);
                    AddLinkCall (new_link formData);
                    MessageSuccess "Link Updated" 2;
                    AnalyticsCall {| event_type := EntityActionEvent;
                                     event_entityType := entityType;
                                     event_entityUrn := mutationUrn;
                                     event_actionType := UpdateLinks |}] ++
                   refetch_effects)%list |})
        | Rejected e =>
            (Fulfilled tt,
             after w (RemoveLinkCall (old_link link) ::
                      AddLinkCall (new_link formData) ::
                      report_effects "Error updating link: " e))
        end
      else
        (Fulfilled tt,
         after w [RemoveLinkCall (old_link link);
                  MessageError "Error updating link: no user" 2])
  end.
Proof.
  intros Hlink. unfold handleEdit. rewrite Hlink.
  unfold try_catch, await at 1, removeLinkMutation, remote.
  fold (old_link link). fold (new_link formData).
  destruct (answer_removeLink (effects w) (old_link link)) as [done | e].
  - destruct (JS.truthy (JS.chain user urn)).
    + unfold await at 1, addLinkMutation, remote.
      cbn [effects emit].
      destruct (answer_addLink _ (new_link formData)) as [added | e].
      * rewrite (emit_after w), after_emit.
        unfold await at 1, message_success, perform. rewrite after_emit.
        unfold await at 1, analytics_event, perform. rewrite after_emit.
        unfold await at 1. rewrite refetch_optional_call_run.
        unfold handleClose, setEditModalVisible, perform, after; cbn.
        reflexivity.
      * rewrite (emit_after w), after_emit. now rewrite report_run.
    + unfold message_error, perform. now rewrite (emit_after w), after_emit.
  - now rewrite (emit_after w), report_run.
Qed.

(** [a || b] is [a] when [a] is a string that is not empty, [b] otherwise. *)
Lemma or_present (resource fallback : string) :
  resource <> "" -> JS.or (Some resource) fallback = resource.
Proof.
  intros Hne. unfold JS.or, JS.truthy.
  destruct (String.eqb_spec resource ""); [contradiction | reflexivity].
Qed.

Lemma or_absent (a : option string) (fallback : string) :
  a = None \/ a = Some "" -> JS.or a fallback = fallback.
Proof. intros [-> | ->]; reflexivity. Qed.

(** C7: for every link, the delete issues the remove request with the url
    of the link and, as resource, the [associatedUrn] of the link; a link
    with no [associatedUrn] (none, or the empty string, which [||] takes for
    none) is removed from the entity's own urn.  It is the only remove
    request of the delete. *)
Theorem delete_targets_association_or_entity
        (metadata : InstitutionalMemoryMetadata) (w : World) :
  (forall resource,
     associatedUrn metadata = Some resource -> resource <> "" ->
     exists rest,
       emitted w (snd (handleDeleteLink metadata w)) =
       RemoveLinkCall {| remove_linkUrl := url metadata;
                         remove_resourceUrn := resource |} :: rest /\
       forall input, ~ In (RemoveLinkCall input) rest) /\
  (associatedUrn metadata = None \/ associatedUrn metadata = Some "" ->
     exists rest,
       emitted w (snd (handleDeleteLink metadata w)) =
       RemoveLinkCall {| remove_linkUrl := url metadata;
                         remove_resourceUrn := entityUrn |} :: rest /\
       forall input, ~ In (RemoveLinkCall input) rest).
Proof.
  rewrite handleDeleteLink_run; cbn [snd]; rewrite emitted_after.
  split.
  - intros resource Hsome Hne.
    eexists; split.
    + unfold old_link. rewrite Hsome, (or_present _ _ Hne). reflexivity.
    + intros input. list_cases.
  - intros Hnone.
    eexists; split.
    + unfold old_link. rewrite (or_absent _ entityUrn Hnone). reflexivity.
    + intros input. list_cases.
Qed.

(** C8: for every link, when a [refetch] callback was given, the delete
    calls it after the remove attempt, last of all, both when the remove
    mutation is fulfilled and when it is rejected. *)
Theorem delete_always_refetches
        (metadata : InstitutionalMemoryMetadata) (w : World) (callback : unit) :
  refetch = Some callback ->
  fst (handleDeleteLink metadata w) = Fulfilled tt /\
  (forall done,
     answer_removeLink (effects w) (old_link metadata) = Fulfilled done ->
     emitted w (snd (handleDeleteLink metadata w)) =
     [RemoveLinkCall (old_link metadata);
      MessageSuccess "Link Removed" 2;
      RefetchCall]) /\
  (forall e,
     answer_removeLink (effects w) (old_link metadata) = Rejected e ->
     emitted w (snd (handleDeleteLink metadata w)) =
     (RemoveLinkCall (old_link metadata) ::
      report_effects "Error removing link: " e ++ [RefetchCall])%list).
Proof.
  intros Hrefetch.
  rewrite handleDeleteLink_run; cbn [fst snd]; rewrite emitted_after.
  unfold refetch_effects; rewrite Hrefetch.
  split; [reflexivity | split].
  - intros done ->. reflexivity.
  - intros e ->. reflexivity.
Qed.

(** C10: when the remove mutation of a delete is rejected with a value that
    is not an instance of [Error], no error notice and no success notice is
    shown: besides the request, the delete only clears the notices and calls
    the refetch. *)
Theorem delete_rejected_with_non_error_is_silent
        (metadata : InstitutionalMemoryMetadata) (w : World) (shown : string) :
  answer_removeLink (effects w) (old_link metadata) = Rejected (OtherValue shown) ->
  emitted w (snd (handleDeleteLink metadata w)) =
  RemoveLinkCall (old_link metadata) :: MessageDestroy :: refetch_effects /\
  (forall content duration,
     ~ In (MessageError content duration)
          (emitted w (snd (handleDeleteLink metadata w))) /\
     ~ In (MessageSuccess content duration)
          (emitted w (snd (handleDeleteLink metadata w)))).
Proof.
  intros Hanswer.
  rewrite handleDeleteLink_run; cbn [snd]; rewrite emitted_after, Hanswer.
  split; [reflexivity |].
  intros content duration. cbn [report_effects app].
  split; list_cases.
Qed.


(** An edit with no signed-in user, case by case: it makes no add-link
    call; with no link under edit it does nothing; with one, the remove-link
    call for it is issued before the user is looked at, and the handler then
    reports that there is no user, or the failure of the removal. *)
Lemma edit_without_user_run (formData : FormData) (w : World) :
  JS.truthy (JS.chain user urn) = false ->
  (forall input, ~ In (AddLinkCall input) (emitted w (snd (handleEdit formData w)))) /\
  (rendered_linkDetails = None -> handleEdit formData w = (Fulfilled tt, w)) /\
  (forall link done,
     rendered_linkDetails = Some link ->
     answer_removeLink (effects w) (old_link link) = Fulfilled done ->
     handleEdit formData w =
     (Fulfilled tt,
      after w [RemoveLinkCall (old_link link);
               MessageError "Error updating link: no user" 2])) /\
  (forall link e,
     rendered_linkDetails = Some link ->
     answer_removeLink (effects w) (old_link link) = Rejected e ->
     handleEdit formData w =
     (Fulfilled tt,
      after w (RemoveLinkCall (old_link link) ::
               report_effects "Error updating link: " e))).
Proof.
  intros Hnouser.
  assert (Hnone : rendered_linkDetails = None -> handleEdit formData w = (Fulfilled tt, w)).
  { intros Hlink. unfold handleEdit. now rewrite Hlink. }
  split; [| split; [exact Hnone | split]].
  - intros input.
    destruct rendered_linkDetails as [link |] eqn:Hlink.
    + rewrite (handleEdit_run formData w link Hlink), Hnouser.
      destruct (answer_removeLink (effects w) (old_link link)) as [done | e];
        cbn [snd]; rewrite emitted_after.
      * cbn [In]. intuition discriminate.
      * list_cases.
    + rewrite (Hnone eq_refl). cbn [snd]. unfold emitted.
      rewrite skipn_all. intros [].
  - intros link done Hlink Hanswer.
    now rewrite (handleEdit_run formData w link Hlink), Hanswer, Hnouser.
  - intros link e Hlink Hanswer.
    now rewrite (handleEdit_run formData w link Hlink), Hanswer.
Qed.

(** *** The rest of the component *)

(** [message || ''] is the message itself. *)
Lemma or_message (message : string) : JS.or (Some message) "" = message.
Proof.
  unfold JS.or, JS.truthy.
  destruct (String.eqb_spec message ""); [now subst | reflexivity].
Qed.

(** Whatever happens next, an edit of a link starts with its removal. *)
Lemma handleEdit_starts_with_remove (formData : FormData) (w : World)
      (link : InstitutionalMemoryMetadata) :
  rendered_linkDetails = Some link ->
  exists rest,
    emitted w (snd (handleEdit formData w)) = RemoveLinkCall (old_link link) :: rest.
Proof.
  intros Hlink. rewrite (handleEdit_run formData w link Hlink).
  destruct (answer_removeLink (effects w) (old_link link)) as [done | e];
    [destruct (JS.truthy (JS.chain user urn));
     [destruct (answer_addLink _ (new_link formData)) as [added | e] |] |];
    cbn [snd]; try (rewrite emitted_after; eexists; reflexivity).
  rewrite emitted_written. eexists; reflexivity.
Qed.

(** X8: a delete never rejects and never writes the state of the
    component; it adds no link and sends no analytics event. *)
Theorem delete_never_rejects (metadata : InstitutionalMemoryMetadata) (w : World) :
  fst (handleDeleteLink metadata w) = Fulfilled tt /\
  state (snd (handleDeleteLink metadata w)) = state w /\
  (forall input,
     ~ In (AddLinkCall input) (emitted w (snd (handleDeleteLink metadata w)))) /\
  (forall event,
     ~ In (AnalyticsCall event) (emitted w (snd (handleDeleteLink metadata w)))).
Proof.
  rewrite handleDeleteLink_run; cbn [fst snd]; rewrite emitted_after.
  repeat split; intros x; list_cases.
Qed.

(** X9: a delete whose removal is fulfilled shows [Link Removed] for two
    seconds after the request, and then calls the refetch if there is one;
    without a [refetch] property no delete ever calls it. *)
Theorem delete_success_notice (metadata : InstitutionalMemoryMetadata) (w : World) :
  (forall done,
     answer_removeLink (effects w) (old_link metadata) = Fulfilled done ->
     emitted w (snd (handleDeleteLink metadata w)) =
     RemoveLinkCall (old_link metadata) ::
     MessageSuccess "Link Removed" 2 :: refetch_effects) /\
  (refetch = None ->
   ~ In RefetchCall (emitted w (snd (handleDeleteLink metadata w)))).
Proof.
  rewrite handleDeleteLink_run; cbn [snd]; rewrite emitted_after.
  split.
  - intros done ->. reflexivity.
  - intros Hnone. unfold refetch_effects. rewrite Hnone.
    unfold report_effects.
    destruct (answer_removeLink (effects w) (old_link metadata)) as [done | [m | v]];
      cbn [In app]; intuition discriminate.
Qed.

(** X10: a delete whose removal is rejected with an [Error] clears the
    notices and shows [Error removing link: ], a line feed, a space and the
    message of the error as it is, for two seconds, before the refetch. *)
Theorem delete_error_notice (metadata : InstitutionalMemoryMetadata) (w : World)
        (message : string) :
  answer_removeLink (effects w) (old_link metadata) = Rejected (ErrorInstance message) ->
  emitted w (snd (handleDeleteLink metadata w)) =
  RemoveLinkCall (old_link metadata) ::
  MessageDestroy ::
  MessageError ("Error removing link: " ++ JS.nl ++ " " ++ message) 2 ::
  refetch_effects.
Proof.
  intros Hanswer.
  rewrite handleDeleteLink_run; cbn [snd]; rewrite emitted_after, Hanswer.
  cbn [report_effects app]. now rewrite or_message.
Qed.

(** X11: an edit with a user signed in whose two mutations are fulfilled
    removes the old link from the resource it hangs on, adds the link of the
    form to the mutation urn, shows [Link Updated], sends the analytics event
    for the mutation urn, calls the refetch if there is one and closes the
    dialog, leaving the rest of the state as it was. *)
Theorem edit_success (formData : FormData) (w : World)
        (link : InstitutionalMemoryMetadata) (removed added : unit) :
  rendered_linkDetails = Some link ->
  JS.truthy (JS.chain user urn) = true ->
  answer_removeLink (effects w) (old_link link) = Fulfilled removed ->
  answer_addLink (effects w ++ [RemoveLinkCall (old_link link)])%list
                 (new_link formData) = Fulfilled added ->
  fst (handleEdit formData w) = Fulfilled tt /\
  emitted w (snd (handleEdit formData w)) =
  (RemoveLinkCall {| remove_linkUrl := url link;
                     remove_resourceUrn := JS.or (associatedUrn link) entityUrn |} ::
   AddLinkCall {| add_linkUrl := form_url formData;
                  add_label := form_label formData;
                  add_resourceUrn := mutationUrn |} ::
   MessageSuccess "Link Updated" 2 ::
   AnalyticsCall {| event_type := EntityActionEvent;
                    event_entityType := entityType;
                    event_entityUrn := mutationUrn;
                    event_actionType := UpdateLinks |} ::
   refetch_effects) /\
  state (snd (handleEdit formData w)) =
  {| editModalVisble := false;
     initialValues := initialValues (state w);
     linkDetails := linkDetails (state w) |}.
Proof.
  intros Hlink Huser Hremove Hadd.
  rewrite (handleEdit_run formData w link Hlink), Hremove, Huser, Hadd.
  cbn [fst snd state].
  repeat split.
  apply emitted_written.
Qed.

(** X12: an edit never rejects, and the only thing it ever writes in the
    state is the closing of the dialog: the values of the form and the link
    under edit stay, and the dialog stays as it was unless it is closed. *)
Theorem edit_never_rejects (formData : FormData) (w : World) :
  fst (handleEdit formData w) = Fulfilled tt /\
  initialValues (state (snd (handleEdit formData w))) = initialValues (state w) /\
  linkDetails (state (snd (handleEdit formData w))) = linkDetails (state w) /\
  (editModalVisble (state (snd (handleEdit formData w))) = editModalVisble (state w) \/
   editModalVisble (state (snd (handleEdit formData w))) = false).
Proof.
  destruct rendered_linkDetails as [link |] eqn:Hlink.
  - rewrite (handleEdit_run formData w link Hlink).
    destruct (answer_removeLink (effects w) (old_link link)) as [done | e];
      [destruct (JS.truthy (JS.chain user urn));
       [destruct (answer_addLink _ (new_link formData)) as [added | e] |] |];
      cbn; auto.
  - unfold handleEdit. rewrite Hlink. cbn; auto.
Qed.

(** X13: the signs of a finished edit (the [Link Updated] notice, the
    analytics event, the refetch, the closing of a dialog that was open)
    appear only when a user is signed in and both mutations were fulfilled;
    unlike a delete, an edit that fails does not refetch. *)
Theorem edit_signals_only_success (formData : FormData) (w : World)
        (link : InstitutionalMemoryMetadata) :
  rendered_linkDetails = Some link ->
  (exists content duration,
     In (MessageSuccess content duration) (emitted w (snd (handleEdit formData w)))) \/
  (exists event, In (AnalyticsCall event) (emitted w (snd (handleEdit formData w)))) \/
  In RefetchCall (emitted w (snd (handleEdit formData w))) \/
  editModalVisble (state (snd (handleEdit formData w))) <> editModalVisble (state w) ->
  JS.truthy (JS.chain user urn) = true /\
  answer_removeLink (effects w) (old_link link) = Fulfilled tt /\
  answer_addLink (effects w ++ [RemoveLinkCall (old_link link)])%list
                 (new_link formData) = Fulfilled tt.
Proof.
  intros Hlink. rewrite (handleEdit_run formData w link Hlink).
  destruct (answer_removeLink (effects w) (old_link link)) as [[] | e].
  - destruct (JS.truthy (JS.chain user urn)).
    + destruct (answer_addLink _ (new_link formData)) as [[] | e].
      * intros _. repeat split.
      * cbn [snd]; rewrite emitted_after. cbn [state after].
        intros [[c [d H]] | [[ev H] | [H | H]]]; exfalso; revert H; list_cases.
    + cbn [snd]; rewrite emitted_after. cbn [state after In].
      intros [[c [d H]] | [[ev H] | [H | H]]]; exfalso; revert H;
        intuition discriminate.
  - cbn [snd]; rewrite emitted_after. cbn [state after].
    intros [[c [d H]] | [[ev H] | [H | H]]]; exfalso; revert H; list_cases.
Qed.

(** X14: when the removal of an edit is rejected, nothing is added, whoever
    is signed in: the handler clears the notices, shows the error if it is
    an [Error], and leaves the dialog open on the link. *)
Theorem edit_removal_rejected_stops (formData : FormData) (w : World)
        (link : InstitutionalMemoryMetadata) (e : thrown) :
  rendered_linkDetails = Some link ->
  answer_removeLink (effects w) (old_link link) = Rejected e ->
  handleEdit formData w =
  (Fulfilled tt,
   after w (RemoveLinkCall (old_link link) ::
            report_effects "Error updating link: " e)) /\
  (forall input, ~ In (AddLinkCall input) (emitted w (snd (handleEdit formData w)))).
Proof.
  intros Hlink Hanswer.
  rewrite (handleEdit_run formData w link Hlink), Hanswer.
  split; [reflexivity |].
  cbn [snd]; rewrite emitted_after. intros input. list_cases.
Qed.

Lemma handleEditLink_run (metadata : InstitutionalMemoryMetadata) (w : World) :
  handleEditLink metadata w =
  (Fulfilled tt,
   {| state := {| editModalVisble := true;
                  initialValues := {| form_url := url metadata;
                                      form_label := description metadata |};
                  linkDetails := Some metadata |};
      effects := effects w |}).
Proof. reflexivity. Qed.

(** X15: opening the edit of a link has no effect outside the component and
    overwrites the whole state, whatever it was: the dialog shows, the link
    is the one under edit, and the form is filled with the url of the link
    and, as its label, with the description of the link, not its label. *)
Theorem open_edit_fills_form (metadata : InstitutionalMemoryMetadata) (w : World) :
  fst (handleEditLink metadata w) = Fulfilled tt /\
  emitted w (snd (handleEditLink metadata w)) = [] /\
  editModalVisble (state (snd (handleEditLink metadata w))) = true /\
  linkDetails (state (snd (handleEditLink metadata w))) = Some metadata /\
  form_url (initialValues (state (snd (handleEditLink metadata w)))) = url metadata /\
  form_label (initialValues (state (snd (handleEditLink metadata w)))) =
    description metadata.
Proof.
  rewrite handleEditLink_run; cbn [fst snd state editModalVisble linkDetails
                                   initialValues form_url form_label].
  repeat split.
  rewrite <- (app_nil_r (effects w)). apply emitted_written.
Qed.

(** X17: closing the dialog after opening the edit of a link hides the
    dialog and nothing more: the link stays the one under edit and the form
    keeps the values it was filled with. *)
Theorem close_after_open_keeps_link (metadata : InstitutionalMemoryMetadata) (w : World) :
  (handleEditLink metadata ;; handleClose) w =
  (Fulfilled tt,
   {| state := {| editModalVisble := false;
                  initialValues := {| form_url := url metadata;
                                      form_label := description metadata |};
                  linkDetails := Some metadata |};
      effects := effects w |}).
Proof. reflexivity. Qed.

End Facts.

Section Renders.
Context {imports : Imports} {render : Render} {server : Server}.

(** X16: the link that an edit removes is the link whose edit was opened:
    in the render after [handleEditLink metadata], a submit of the form
    starts with the remove request for [metadata], whatever the form holds. *)
Theorem edit_removes_the_opened_link
        (metadata : InstitutionalMemoryMetadata) (formData : FormData) (w : World) :
  exists rest,
    emitted (snd (handleEditLink metadata w))
            (snd (handleEdit (render := rerender (snd (handleEditLink metadata w)))
                             formData (snd (handleEditLink metadata w)))) =
    RemoveLinkCall {| remove_linkUrl := url metadata;
                      remove_resourceUrn := JS.or (associatedUrn metadata) entityUrn |}
    :: rest.
Proof.
  rewrite handleEditLink_run; cbn [snd].
  match goal with |- context [rerender ?opened] => set (w' := opened) end.
  exact (@handleEdit_starts_with_remove imports (rerender w') server
           formData w' metadata eq_refl).
Qed.

End Renders.

Section Views.
Context {imports : Imports} {render : Render} {server : Server}
        {registry : Registry}.

Lemma links_of_data (data : EntityData) :
  links (Some data) =
  match institutionalMemory data with
  | Some memory => match elements memory with Some found => found | None => [] end
  | None => []
  end.
Proof. reflexivity. Qed.

(** X18: the component returns nothing without entity data.  With entity
    data it returns the dialog, shown as the state says and filled with the
    values of the state, and the list exactly when the entity has a link, with
    one row for each link; an entity without institutional memory, or whose
    memory has no elements, has no link. *)
Theorem element_shows_list_iff_links (st : State) (entityData : option EntityData) :
  (element st entityData = None <-> entityData = None) /\
  (forall shown,
     element st entityData = Some shown ->
     modal_visible (element_modal shown) = editModalVisble st /\
     form_initialValues (element_modal shown) = initialValues st /\
     (element_list shown = None <-> links entityData = []) /\
     (forall items,
        element_list shown = Some items ->
        length items = length (links entityData))) /\
  (forall data,
     institutionalMemory data = None \/
     institutionalMemory data = Some {| elements := None |} ->
     links (Some data) = []).
Proof.
  split; [| split].
  - destruct entityData; cbn; split; intros H; (discriminate H || reflexivity).
  - intros shown. destruct entityData as [data |]; [| discriminate].
    unfold element.
    destruct (links (Some data)) as [| link more];
      intros Hshown; injection Hshown as <-; repeat split; try discriminate.
    intros items Hitems; injection Hitems as <-.
    cbn [length map]. now rewrite length_map.
  - intros data [Hnone | Hempty]; rewrite links_of_data.
    + now rewrite Hnone.
    + now rewrite Hempty.
Qed.

(** X19: the text of a row is the description of the link, and its label
    when the description is empty; the anchor goes to the url of the link. *)
Theorem item_title_falls_back_to_label (link : InstitutionalMemoryMetadata) :
  (description link <> "" -> item_title (renderItem link) = description link) /\
  (description link = "" -> item_title (renderItem link) = label link) /\
  item_href (renderItem link) = url link.
Proof.
  unfold renderItem; cbn [item_title item_href].
  split; [| split].
  - intros Hne. now apply or_present.
  - intros Hempty. apply or_absent. right. now rewrite Hempty.
  - reflexivity.
Qed.

(** X20: the buttons of a row act on the link of that row: the row at a
    position of the list is the row of the link at that position; its delete
    button starts with the remove request for that link, and its edit button
    puts that link under edit. *)
Theorem row_buttons_act_on_their_link
        (st : State) (entityData : option EntityData) (shown : Element)
        (items : list LinkListItem) (position : nat) (item : LinkListItem) (w : World) :
  element st entityData = Some shown ->
  element_list shown = Some items ->
  nth_error items position = Some item ->
  exists link,
    nth_error (links entityData) position = Some link /\
    (exists rest,
       emitted w (snd (item_onDelete item w)) = RemoveLinkCall (old_link link) :: rest) /\
    linkDetails (state (snd (item_onEdit item w))) = Some link /\
    item_href item = url link.
Proof.
  intros Hshown Hitems Hitem.
  destruct entityData as [data |]; [| discriminate].
  unfold element in Hshown.
  remember (links (Some data)) as found eqn:Hfound.
  destruct (Nat.ltb 0 (length found));
    injection Hshown as <-; cbn [element_list] in Hitems;
    [| discriminate Hitems].
  injection Hitems as <-.
  rewrite nth_error_map in Hitem.
  destruct (nth_error found position) as [link |];
    cbn [option_map] in Hitem; [| discriminate Hitem].
  injection Hitem as <-.
  exists link. cbn [renderItem item_onDelete item_onEdit item_href].
  repeat split.
  rewrite handleDeleteLink_run; cbn [snd]; rewrite emitted_after.
  eexists; reflexivity.
Qed.

End Views.

End LinkListFacts.

(** The handlers run on the concrete entity. *)
Module LinkListRuns.
Import LinkList LinkListExample LinkListFacts.

#[local] Existing Instance LinkListExample.imports.

(** A link of a sibling resource is removed from that resource, a link with
    no association from the entity shown. *)
Lemma delete_targets_association_or_entity_witness :
  (exists rest,
     emitted start
       (snd (handleDeleteLink (render := render (Some jdoe) None)
                              (server := server (Fulfilled tt) (Fulfilled tt))
                              wiki_of_sibling start)) =
     RemoveLinkCall {| remove_linkUrl := "https://wiki.example.com/orders";
                       remove_resourceUrn := "urn:li:dataset:sibling" |} :: rest /\
     forall input, ~ In (RemoveLinkCall input) rest) /\
  (exists rest,
     emitted start
       (snd (handleDeleteLink (render := render (Some jdoe) None)
                              (server := server (Fulfilled tt) (Fulfilled tt))
                              wiki start)) =
     RemoveLinkCall {| remove_linkUrl := "https://wiki.example.com/orders";
                       remove_resourceUrn := "urn:li:dataset:orders" |} :: rest /\
     forall input, ~ In (RemoveLinkCall input) rest).
Proof.
  split.
  - apply (proj1 (delete_targets_association_or_entity
                    (render := render (Some jdoe) None)
                    (server := server (Fulfilled tt) (Fulfilled tt))
                    wiki_of_sibling start)
                 "urn:li:dataset:sibling").
    + reflexivity.
    + discriminate.
  - apply (proj2 (delete_targets_association_or_entity
                    (render := render (Some jdoe) None)
                    (server := server (Fulfilled tt) (Fulfilled tt))
                    wiki start)).
    left; reflexivity.
Defined.

(** The remove fails with an error: the notice, then the refetch. *)
Lemma delete_always_refetches_witness :
  emitted start
    (snd (handleDeleteLink
            (render := render (Some jdoe) None)
            (server := server (Rejected (ErrorInstance "network down")) (Fulfilled tt))
            wiki start)) =
  [RemoveLinkCall {| remove_linkUrl := "https://wiki.example.com/orders";
                     remove_resourceUrn := "urn:li:dataset:orders" |};
   MessageDestroy;
   MessageError ("Error removing link: " ++ JS.nl ++ " network down") 2;
   RefetchCall].
Proof.
  apply (proj2 (proj2 (delete_always_refetches
                         (render := render (Some jdoe) None)
                         (server := server (Rejected (ErrorInstance "network down"))
                                           (Fulfilled tt))
                         wiki start tt eq_refl))
               (ErrorInstance "network down")).
  reflexivity.
Defined.

(** The remove fails with a thrown string: no notice at all. *)
Lemma delete_rejected_with_non_error_is_silent_witness :
  emitted start
    (snd (handleDeleteLink
            (render := render (Some jdoe) None)
            (server := server (Rejected (OtherValue "timeout")) (Fulfilled tt))
            wiki start)) =
  [RemoveLinkCall {| remove_linkUrl := "https://wiki.example.com/orders";
                     remove_resourceUrn := "urn:li:dataset:orders" |};
   MessageDestroy;
   RefetchCall].
Proof.
  apply (proj1 (delete_rejected_with_non_error_is_silent
                  (render := render (Some jdoe) None)
                  (server := server (Rejected (OtherValue "timeout")) (Fulfilled tt))
                  wiki start "timeout" eq_refl)).
Defined.


(** C2: at an edit of the wiki link with nobody signed in, against a server
    that accepts every mutation, the handler has issued the remove-link call
    before it reports that there is no user.  The claim has such an edit
    aborted before any write, with no remove-link call issued: here the link
    is removed, no link is added, and the notice says the update failed. *)
Theorem edit_without_user_removes_before_check :
  handleEdit
    (render := render None (Some wiki))
    (server := server (Fulfilled tt) (Fulfilled tt))
    form start =
  (Fulfilled tt,
   after start
     [RemoveLinkCall {| remove_linkUrl := "https://wiki.example.com/orders";
                        remove_resourceUrn := "urn:li:dataset:orders" |};
      MessageError "Error updating link: no user" 2]) /\
  ~ aborted_before_any_write
      (render := render None (Some wiki))
      (server := server (Fulfilled tt) (Fulfilled tt))
      form start.
Proof.
  split; [reflexivity |].
  intros [_ [_ Hnoremove]].
  apply (Hnoremove {| remove_linkUrl := "https://wiki.example.com/orders";
                      remove_resourceUrn := "urn:li:dataset:orders" |}).
  left; reflexivity.
Qed.

(** The words of the notice after a failed removal. *)
Lemma delete_error_notice_witness :
  emitted start
    (snd (handleDeleteLink
            (render := render (Some jdoe) None)
            (server := server (Rejected (ErrorInstance "network down")) (Fulfilled tt))
            wiki_of_sibling start)) =
  [RemoveLinkCall {| remove_linkUrl := "https://wiki.example.com/orders";
                     remove_resourceUrn := "urn:li:dataset:sibling" |};
   MessageDestroy;
   MessageError ("Error removing link: " ++ JS.nl ++ " network down") 2;
   RefetchCall].
Proof.
  apply (delete_error_notice
           (render := render (Some jdoe) None)
           (server := server (Rejected (ErrorInstance "network down")) (Fulfilled tt))
           wiki_of_sibling start "network down").
  reflexivity.
Defined.

(** The link of the sibling is edited from the page of the orders: it is
    removed from the sibling and added to the orders. *)
Lemma edit_success_witness :
  emitted start
    (snd (handleEdit
            (render := render (Some jdoe) (Some wiki_of_sibling))
            (server := server (Fulfilled tt) (Fulfilled tt))
            form start)) =
  [RemoveLinkCall {| remove_linkUrl := "https://wiki.example.com/orders";
                     remove_resourceUrn := "urn:li:dataset:sibling" |};
   AddLinkCall {| add_linkUrl := "https://wiki.example.com/orders-v2";
                  add_label := "Orders wiki (v2)";
                  add_resourceUrn := "urn:li:dataset:orders" |};
   MessageSuccess "Link Updated" 2;
   AnalyticsCall {| event_type := "EntityActionEvent";
                    event_entityType := "DATASET";
                    event_entityUrn := "urn:li:dataset:orders";
                    event_actionType := "UpdateLinks" |};
   RefetchCall].
Proof.
  apply (proj1 (proj2
           (edit_success
              (render := render (Some jdoe) (Some wiki_of_sibling))
              (server := server (Fulfilled tt) (Fulfilled tt))
              form start wiki_of_sibling tt tt
              eq_refl eq_refl eq_refl eq_refl))).
Defined.

(** The refetch was called: both mutations had been fulfilled. *)
Lemma edit_signals_only_success_witness :
  answer_addLink (Server := server (Fulfilled tt) (Fulfilled tt))
    [RemoveLinkCall {| remove_linkUrl := "https://wiki.example.com/orders";
                       remove_resourceUrn := "urn:li:dataset:orders" |}]
    {| add_linkUrl := "https://wiki.example.com/orders-v2";
       add_label := "Orders wiki (v2)";
       add_resourceUrn := "urn:li:dataset:orders" |} = Fulfilled tt.
Proof.
  refine (proj2 (proj2
            (edit_signals_only_success
               (render := render (Some jdoe) (Some wiki))
               (server := server (Fulfilled tt) (Fulfilled tt))
               form start wiki eq_refl _))).
  right; right; left. vm_compute.
  do 4 right; left; reflexivity.
Defined.

(** The removal fails, with a user signed in: no add. *)
Lemma edit_removal_rejected_stops_witness :
  handleEdit
    (render := render (Some jdoe) (Some wiki))
    (server := server (Rejected (OtherValue "timeout")) (Fulfilled tt))
    form start =
  (Fulfilled tt,
   after start
     [RemoveLinkCall {| remove_linkUrl := "https://wiki.example.com/orders";
                        remove_resourceUrn := "urn:li:dataset:orders" |};
      MessageDestroy]).
Proof.
  apply (proj1 (edit_removal_rejected_stops
                  (render := render (Some jdoe) (Some wiki))
                  (server := server (Rejected (OtherValue "timeout")) (Fulfilled tt))
                  form start wiki (OtherValue "timeout") eq_refl eq_refl)).
Defined.

(** The second row of the list of the orders is the link of the sibling:
    its delete button removes it from the sibling. *)
Lemma row_buttons_act_on_their_link_witness :
  exists link,
    nth_error [wiki; wiki_of_sibling] 1 = Some link /\
    (exists rest,
       emitted start
         (snd (handleDeleteLink
                 (render := render (Some jdoe) None)
                 (server := server (Fulfilled tt) (Fulfilled tt))
                 wiki_of_sibling start)) =
       RemoveLinkCall (old_link (render := render (Some jdoe) None) link) :: rest) /\
    Some wiki_of_sibling = Some link /\
    "https://wiki.example.com/orders" = url link.
Proof.
  apply (row_buttons_act_on_their_link
           (render := render (Some jdoe) None)
           (server := server (Fulfilled tt) (Fulfilled tt))
           (registry := registry)
           start.(state) (Some orders)
           _ _ 1 _ start eq_refl eq_refl eq_refl).
Defined.

End LinkListRuns.
